(** * mermkit: the Strands agent example (examples/strands-agent/agent.py)

    The script creates one module-level [MermkitClient], starts it, hooks its
    [close] method to interpreter exit through [atexit], and exposes one tool
    function, [render_mermaid], which forwards a diagram to the client and
    repackages the response as a plain dict.

    The embedding is a state-and-exception monad over a world made of the
    shared client object, the list of method calls issued on it, and the
    [atexit] registry.  The client class itself lives in the [mermkit]
    package; the adapter is verified against an arbitrary implementation of
    its interface, and the contract the specification gives for the client is
    modelled separately, in [Module Contract]. *)

From Stdlib Require Import Init.Byte.
From stdpp Require Import base strings list gmap.

(** ** Python values *)

(** The values that travel through the adapter: text, binary payloads and
    lists. *)
#[local] Unset Elimination Schemes.
Inductive value : Type :=
| VNone
| VStr (s : string)
| VBytes (b : list byte)
| VList (l : list value).
#[local] Set Elimination Schemes.

(** The object returned by [_client.render]: the adapter reads the
    attributes [mime], [bytes] and [warnings] of it and nothing else. *)
Record Response : Type := {
  mime : value;
  bytes : value;
  warnings : value
}.

(** ** The client interface

    [MermkitClient] is imported from the [mermkit] package.  [S] is the
    internal state of a client object and [E] the type of the exceptions its
    methods raise; a method takes the state of the object and returns either
    an exception or a result, together with the new state. *)
Class MermkitClient (E S : Type) : Type := {
  new : S;
  start : S → (E + unit) * S;
  close : S → (E + unit) * S;
  render : string → string → string → S → (E + Response) * S
}.

(** ** The world of the process *)

(** A method call issued on the module-level client. *)
Inductive Event : Type :=
| CallStart
| CallClose
| CallRender (diagram format engine : string).

(** A function handed to [atexit.register]; the script registers only the
    bound method [_client.close]. *)
Inductive Callback : Type :=
| BoundClose.

Record World (S : Type) : Type := {
  _client : S;
  calls : list Event;
  exitfuncs : list Callback
}.
Arguments _client {S}.
Arguments calls {S}.
Arguments exitfuncs {S}.

(** ** Statements: state passing with exceptions

    A statement maps the world to an outcome and a new world.  A raised
    exception skips the rest of the block; what was done to the world before
    it stays done. *)
Definition Py (E S A : Type) : Type := World S → (E + A) * World S.

Definition ret {E S A} (a : A) : Py E S A := λ w, (inr a, w).

Definition bind {E S A B} (m : Py E S A) (k : A → Py E S B) : Py E S B :=
  λ w, match m w with
       | (inl e, w') => (inl e, w')
       | (inr a, w') => k a w'
       end.

Declare Scope py_scope.
Delimit Scope py_scope with py.
Notation "x <- m ;; k" := (bind m (λ x, k))
  (at level 100, m at next level, right associativity) : py_scope.
Notation "m ;; k" := (bind m (λ _, k))
  (at level 100, right associativity) : py_scope.
Open Scope py_scope.

(** How the process ends.  [InterpreterExit] covers the end of the script,
    [sys.exit] and an uncaught exception: the interpreter shuts down in an
    orderly way and runs the [atexit] handlers.  [Killed] covers [os._exit], a
    signal the interpreter does not handle and a crash of the interpreter:
    the process disappears and no handler runs. *)
Inductive Termination : Type :=
| InterpreterExit
| Killed.

(** The tool invocations of the [__main__] block (lines 18-23): one call,
    with the diagram and the format written in the script.  The call is
    taken as a call of the function itself; the dispatch of the agent
    framework that stands between line 22 and the function is not part of
    the model. *)
Definition main_invocations : list (string * option string) :=
  [("graph TD; A-->B", Some "svg")].

Section Agent.
Context {E S : Type} {client : MermkitClient E S}.

(** [_client.m(...)]: the call is recorded, the method runs on the shared
    object, and the object keeps whatever state the method left. *)
Definition method {A} (ev : Event) (m : S → (E + A) * S) : Py E S A :=
  λ w, let '(r, s) := m (_client w) in
       (r, {| _client := s; calls := calls w ++ [ev];
              exitfuncs := exitfuncs w |}).

(** [atexit.register(f)]: handlers are kept most recent first, the order
    in which the interpreter runs them. *)
Definition atexit_register (f : Callback) : Py E S unit :=
  λ w, (inr (),
        {| _client := _client w; calls := calls w;
           exitfuncs := f :: exitfuncs w |}).

Definition run_callback (f : Callback) : Py E S unit :=
  match f with
  | BoundClose => method CallClose close
  end.

(** Interpreter finalization: every registered handler is called, last
    registered first; an exception raised by a handler is reported and
    dropped, and the remaining handlers still run. *)
Fixpoint run_handlers (fs : list Callback) (w : World S) : World S :=
  match fs with
  | [] => w
  | f :: fs' => run_handlers fs' (run_callback f w).2
  end.

Definition run_exitfuncs (w : World S) : World S :=
  run_handlers (exitfuncs w)
    {| _client := _client w; calls := calls w; exitfuncs := [] |}.

(** *** The tool function (lines 11-15)

    [format] is [None] when the caller passes no format; the parameter then
    takes its declared default. *)
Definition render_mermaid (diagram : string) (format : option string)
  : Py E S (gmap string value) :=
  let format := default "svg" format in
  result <- method (CallRender diagram format "stub")
                   (render diagram format "stub") ;;
  ret ({[ "mime" := mime result;
          "bytes" := bytes result;
          "warnings" := warnings result ]} : gmap string value).

(** *** Module level (lines 6-8)

    The world after [_client = MermkitClient()]: a new client, on which
    nothing has been called, and an empty [atexit] registry. *)
Definition initial : World S :=
  {| _client := new; calls := []; exitfuncs := [] |}.

(** [_client.start()] followed by [atexit.register(_client.close)]; when
    [start] raises, the registration is not reached. *)

Definition module_init : Py E S unit :=
  method CallStart start ;;
  atexit_register BoundClose.

(** A run of tool invocations, each given by its diagram and its optional
    format and made as a call of the function itself; as with any uncaught
    exception in a script, the first one ends the run. *)
Fixpoint session (invocations : list (string * option string))
  : Py E S unit :=
  match invocations with
  | [] => ret ()
  | (diagram, format) :: rest =>
      render_mermaid diagram format ;; session rest
  end.

(** The [__main__] block (lines 18-23): one tool call, whose result is
    printed. *)
Definition main : Py E S unit :=
  session main_invocations.

(** *** The process

    The module body runs first, then the tool invocations; an exception in
    either ends the script and the interpreter shuts down.  Whether the
    handlers run depends on how the process ends. *)
Definition run_process (invocations : list (string * option string))
    (how : Termination) : World S :=
  let w := ((module_init ;; session invocations) initial).2 in
  match how with
  | InterpreterExit => run_exitfuncs w
  | Killed => w
  end.

(** A backend is deterministic when its answer to a request is a function
    of the request: whenever two calls with the same arguments both answer,
    they give the same response. *)
Definition deterministic_backend : Prop :=
  ∀ diagram format engine s1 s2 r1 r2,
    (render diagram format engine s1).1 = inr r1 →
    (render diagram format engine s2).1 = inr r2 →
    r1 = r2.

Definition is_render (ev : Event) : Prop :=
  match ev with
  | CallRender _ _ _ => True
  | _ => False
  end.
End Agent.

(** ** The client contract

    The [mermkit] package is not part of the example; the definitions of this
    module follow what the specification says of the client. *)
Module Contract.

(** Modelled from the spec: the [format] enum of a render request
    (section 3), missing with the [mermkit] package. *)
Inductive Format : Type :=
| Svg
| Png.

(** Modelled from the spec: the text of each enum value (section 3). *)
Definition format_name (fmt : Format) : string :=
  match fmt with
  | Svg => "svg"
  | Png => "png"
  end.

(** Modelled from the spec: a format is supported when it is one of the
    enum values (section 4.1). *)
Definition parse_format (format : string) : option Format :=
  if String.eqb format "svg" then Some Svg
  else if String.eqb format "png" then Some Png
  else None.

(** Modelled from the spec: the MIME type of each format (section 8). *)
Definition mime_type (fmt : Format) : string :=
  match fmt with
  | Svg => "image/svg+xml"
  | Png => "image/png"
  end.

(** Modelled from the spec: the error kinds (section 7). *)
Inductive ErrorKind : Type :=
| InvalidArgument
| BackendUnavailable
| RenderError.

(** Modelled from the spec: the rendering engine behind the client, an
    opaque service (section 6).  Given the engine selector, the diagram
    source and the format it answers with a payload and warnings, or
    reports a rendering failure with [None]. *)
Definition Backend : Type :=
  string → string → Format → option (list byte * list string).

(** Modelled from the spec: a successful render has a non-empty payload
    (invariant of section 3). *)
Definition payload_nonempty (backend : Backend) : Prop :=
  ∀ engine source fmt payload warns,
    backend engine source fmt = Some (payload, warns) → payload ≠ [].

Section Client.
Variable backend : Backend.

(** Modelled from the spec: [MermkitClient.start], which establishes the
    connection and is idempotent (section 6).  The state of a client is
    whether its connection is established. *)
Definition start (connected : bool) : (ErrorKind + unit) * bool :=
  (inr (), true).

(** Modelled from the spec: [MermkitClient.close], which releases the
    connection and is idempotent (section 6). *)
Definition close (connected : bool) : (ErrorKind + unit) * bool :=
  (inr (), false).

(** Modelled from the spec: [MermkitClient.render] (sections 4.1, 6, 7).
    A client whose connection is not established fails with
    [BackendUnavailable] whatever the input; then an empty source or an
    unsupported format fails with [InvalidArgument]; then a failure
    reported by the engine fails with [RenderError]; otherwise the
    response carries the MIME type of the format, the payload and the
    warnings. *)
Definition render (source format engine : string) (connected : bool)
  : (ErrorKind + Response) * bool :=
  if negb connected then (inl BackendUnavailable, connected)
  else if String.eqb source "" then (inl InvalidArgument, connected)
  else match parse_format format with
       | None => (inl InvalidArgument, connected)
       | Some fmt =>
           match backend engine source fmt with
           | None => (inl RenderError, connected)
           | Some (payload, warns) =>
               (inr {| mime := VStr (mime_type fmt);
                       bytes := VBytes payload;
                       warnings := VList (VStr <$> warns) |},
                connected)
           end
       end.

(** Modelled from the spec: the client class; a new client is not
    connected until [start] is called (section 6). *)
Definition client : MermkitClient ErrorKind bool :=
  Build_MermkitClient ErrorKind bool false start close render.
End Client.

(** A sample engine on which the statements below are exercised: it
    answers every request with a fixed placeholder, the text of an empty
    SVG element or the first bytes of a PNG file, and no warnings. *)
Definition sample_backend : Backend :=
  λ engine source fmt,
    match fmt with
    | Svg => Some ([x3c; x73; x76; x67; x2f; x3e], [])
    | Png => Some ([x89; x50; x4e; x47], [])
    end.

(** The contract client over the sample engine. *)
Definition sample_client : MermkitClient ErrorKind bool :=
  client sample_backend.

End Contract.

(** The world of the contract client once the module body has run: the
    connection is established and [close] is registered. *)
Definition ready : World bool :=
  {| _client := true; calls := [CallStart]; exitfuncs := [BoundClose] |}.

(** A client under observation: it behaves as [client] does and keeps,
    beside the state of [client], the arguments of every [render] call it
    receives, in the order source, format, engine. *)
Definition observed {E S} (client : MermkitClient E S)
  : MermkitClient E (S * list (string * string * string)) :=
  Build_MermkitClient E (S * list (string * string * string))
    (new, [])
    (λ '(s, seen), let '(r, s') := start s in (r, (s', seen)))
    (λ '(s, seen), let '(r, s') := close s in (r, (s', seen)))
    (λ source format engine '(s, seen),
       let '(r, s') := render source format engine s in
       (r, (s', seen ++ [(source, format, engine)]))).


(** Two more clients on which the statements are exercised.  The first
    answers every request, whatever the diagram and the format: it echoes
    the format as the MIME type and sends an empty payload.  The second
    cannot connect: its [start] raises, and so does its [render]. *)
Definition echo_client : MermkitClient string unit :=
  Build_MermkitClient string unit ()
    (λ s, (inr (), s))
    (λ s, (inr (), s))
    (λ diagram format engine s,
       (inr {| mime := VStr format; bytes := VBytes [];
               warnings := VList [] |}, s)).

Definition offline_client : MermkitClient string unit :=
  Build_MermkitClient string unit ()
    (λ s, (inl "connection refused", s))
    (λ s, (inr (), s))
    (λ diagram format engine s, (inl "not started", s)).

(** * Properties of the adapter, for every client *)

Section AgentFacts.
Context {E S : Type} {client : MermkitClient E S}.
Implicit Types (w : World S) (diagram : string) (format : option string).

(** One call of the tool, spelled out: one request is recorded, the client
    keeps the state [render] left, and the outcome is the exception of the
    client or the dict made of the three attributes of its response. *)
Lemma render_mermaid_unfold diagram format w :
  render_mermaid diagram format w =
    let fmt := default "svg" format in
    let out := render diagram fmt "stub" (_client w) in
    let w' := {| _client := out.2;
                 calls := calls w ++ [CallRender diagram fmt "stub"];
                 exitfuncs := exitfuncs w |} in
    match out.1 with
    | inl e => (inl e, w')
    | inr result =>
        (inr {[ "mime" := mime result;
                "bytes" := bytes result;
                "warnings" := warnings result ]}, w')
    end.
Proof.
  unfold render_mermaid, bind, method, ret. simpl.
  destruct (render diagram (default "svg" format) "stub" (_client w))
    as [[e | result] s]; reflexivity.
Qed.

Lemma render_mermaid_exitfuncs diagram format w :
  exitfuncs (render_mermaid diagram format w).2 = exitfuncs w.
Proof.
  rewrite render_mermaid_unfold. simpl.
  destruct (render _ _ _ _).1; reflexivity.
Qed.

Lemma render_mermaid_calls diagram format w :
  calls (render_mermaid diagram format w).2 =
    calls w ++ [CallRender diagram (default "svg" format) "stub"].
Proof.
  rewrite render_mermaid_unfold. simpl.
  destruct (render _ _ _ _).1; reflexivity.
Qed.

(** X1: the adapter fails only when the client does: an exception that
    comes out of [render_mermaid] was raised by the client's [render] on the
    forwarded request. *)
Lemma render_mermaid_failure_from_client diagram format w e :
  (render_mermaid diagram format w).1 = inl e →
  (render diagram (default "svg" format) "stub" (_client w)).1 = inl e.
Proof.
  rewrite render_mermaid_unfold. simpl.
  destruct (render _ _ _ _).1; simpl; congruence.
Qed.

(** A session issues render requests and nothing else, and leaves the
    [atexit] registry alone. *)
Lemma session_calls invocations w :
  ∃ renders,
    Forall is_render renders ∧
    calls (session invocations w).2 = calls w ++ renders ∧
    exitfuncs (session invocations w).2 = exitfuncs w.
Proof.
  revert w. induction invocations as [| [diagram format] rest IH]; intros w.
  - exists []. simpl. rewrite app_nil_r. auto.
  - simpl. unfold bind.
    pose proof (render_mermaid_calls diagram format w) as Hc.
    pose proof (render_mermaid_exitfuncs diagram format w) as Hx.
    destruct (render_mermaid diagram format w) as [[e | d] w']; simpl in *.
    + exists [CallRender diagram (default "svg" format) "stub"].
      repeat split; auto. repeat constructor.
    + destruct (IH w') as (renders & Hall & Hcalls & Hexit).
      exists (CallRender diagram (default "svg" format) "stub" :: renders).
      split; [constructor; [exact I | exact Hall] |].
      rewrite Hcalls, Hexit, Hc, Hx, <- app_assoc. auto.
Qed.

(** The module body, when [start] succeeds: the client has been started
    and [close] is the one registered handler. *)
Lemma module_init_started :
  (start new).1 = inr () →
  module_init initial =
    (inr (), {| _client := (start new).2; calls := [CallStart];
                exitfuncs := [BoundClose] |}).
Proof.
  intros Hstart. unfold module_init, bind, method, atexit_register, initial.
  simpl. destruct (start new) as [r s]. simpl in *. subst r. reflexivity.
Qed.

(** C5: a successful call returns a dict with the keys [mime], [bytes] and
    [warnings] and no other, each bound to the value of the attribute of
    the same name of the response the client gave to this very request. *)
Theorem render_mermaid_result_fields diagram format w d :
  (render_mermaid diagram format w).1 = inr d →
  ∃ result,
    (render diagram (default "svg" format) "stub" (_client w)).1
      = inr result ∧
    d !! "mime" = Some (mime result) ∧
    d !! "bytes" = Some (bytes result) ∧
    d !! "warnings" = Some (warnings result) ∧
    dom d =@{gset string} {[ "mime"; "bytes"; "warnings" ]}.
Proof.
  rewrite render_mermaid_unfold. simpl.
  destruct (render _ _ _ _).1 as [e | result]; simpl; [discriminate |].
  intros [= <-]. exists result.
  split; [reflexivity |].
  split_and!; try (by simplify_map_eq).
  all: rewrite !dom_insert_L, dom_empty_L; set_solver.
Qed.

(** C7: against a deterministic backend, two successful calls with the
    same diagram and format return the same [mime] and the same [bytes],
    whatever happened to the client in between. *)
Theorem render_mermaid_deterministic diagram format w1 w2 d1 d2 :
  deterministic_backend →
  (render_mermaid diagram format w1).1 = inr d1 →
  (render_mermaid diagram format w2).1 = inr d2 →
  d1 !! "mime" = d2 !! "mime" ∧ d1 !! "bytes" = d2 !! "bytes".
Proof.
  intros Hdet H1 H2.
  rewrite render_mermaid_unfold in H1, H2. simpl in H1, H2.
  destruct (render _ _ _ (_client w1)).1 as [| r1] eqn:E1;
    simpl in H1; [discriminate |].
  destruct (render _ _ _ (_client w2)).1 as [| r2] eqn:E2;
    simpl in H2; [discriminate |].
  rewrite (Hdet _ _ _ _ _ _ _ E1 E2) in H1. split; congruence.
Qed.

(** C10: when the client's [render] raises an exception, the tool ends
    with that same exception. *)
Theorem render_mermaid_propagates diagram format w e :
  (render diagram (default "svg" format) "stub" (_client w)).1 = inl e →
  (render_mermaid diagram format w).1 = inl e.
Proof.
  intros He. rewrite render_mermaid_unfold. simpl. rewrite He. reflexivity.
Qed.

End AgentFacts.

(** * What the client receives *)

Section Forwarding.
Context {E S : Type} {client : MermkitClient E S}.
Implicit Types (diagram : string) (format : option string).

(** What a client under observation holds after one call of the tool: the
    state its [render] left, and one more received request. *)
Lemma render_mermaid_received diagram format
    (w : World (S * list (string * string * string))) :
  _client (render_mermaid (client := observed client) diagram format w).2 =
    ((render diagram (default "svg" format) "stub" (_client w).1).2,
     (_client w).2 ++ [(diagram, default "svg" format, "stub")]).
Proof.
  rewrite (render_mermaid_unfold (client := observed client)). simpl.
  destruct (_client w) as [s seen]. simpl.
  destruct (render diagram (default "svg" format) "stub" s) as [[e | r] s'];
    reflexivity.
Qed.

(** C6: every call of the tool makes exactly one [render] call on the
    client, and what the client receives as engine selector is the constant
    ["stub"], whatever the diagram and the format: on any client under
    observation the list of received requests grows by the one request
    (diagram, format, ["stub"]), the observed client has moved as its
    [render] on that request moves it, and the recorded call agrees. *)
Theorem render_mermaid_fixed_engine diagram format
    (w : World (S * list (string * string * string))) :
  let fmt := default "svg" format in
  let w' := (render_mermaid (client := observed client) diagram format w).2 in
  (_client w').2 = (_client w).2 ++ [(diagram, fmt, "stub")] ∧
  (_client w').1 = (render diagram fmt "stub" (_client w).1).2 ∧
  calls w' = calls w ++ [CallRender diagram fmt "stub"].
Proof.
  simpl. rewrite render_mermaid_received.
  rewrite (render_mermaid_calls (client := observed client)). auto.
Qed.

(** C8: on a call without a format, the format the client receives is
    ["svg"]: on any client under observation the one request received is
    (diagram, ["svg"], ["stub"]), and the observed client has moved as its
    [render] on that request moves it. *)
Theorem render_mermaid_default_format diagram
    (w : World (S * list (string * string * string))) :
  let w' := (render_mermaid (client := observed client) diagram None w).2 in
  (_client w').2 = (_client w).2 ++ [(diagram, "svg", "stub")] ∧
  (_client w').1 = (render diagram "svg" "stub" (_client w).1).2.
Proof.
  simpl. rewrite render_mermaid_received. auto.
Qed.
End Forwarding.

(** * Properties of the adapter over the client contract *)

Section ContractFacts.
Variable backend : Contract.Backend.
Implicit Types (w : World bool) (diagram : string) (fmt : Contract.Format).

Lemma parse_format_name fmt :
  Contract.parse_format (Contract.format_name fmt) = Some fmt.
Proof. destruct fmt; reflexivity. Qed.


(** With the connection established, a non-empty diagram, a supported
    format and an engine that answers, the call succeeds. *)
Lemma render_mermaid_succeeds diagram fmt w payload warns :
  _client w = true →
  diagram ≠ "" →
  backend "stub" diagram fmt = Some (payload, warns) →
  (render_mermaid (client := Contract.client backend)
     diagram (Some (Contract.format_name fmt)) w).1 =
    inr {[ "mime" := VStr (Contract.mime_type fmt);
           "bytes" := VBytes payload;
           "warnings" := VList (VStr <$> warns) ]}.
Proof.
  intros Hconn Hne Hb. rewrite render_mermaid_unfold. simpl.
  unfold Contract.render. rewrite Hconn. simpl.
  apply String.eqb_neq in Hne. rewrite Hne, parse_format_name, Hb.
  reflexivity.
Qed.




(** C4: on a client whose connection is not established, every call fails
    with [BackendUnavailable], whatever the diagram and the format. *)
Theorem render_mermaid_not_connected diagram (format : option string) w :
  _client w = false →
  (render_mermaid (client := Contract.client backend) diagram format w).1
    = inl Contract.BackendUnavailable.
Proof.
  intros Hconn. rewrite render_mermaid_unfold. simpl.
  unfold Contract.render. rewrite Hconn. reflexivity.
Qed.

(** The contract client answers a request from the request alone. *)
Lemma contract_client_deterministic :
  deterministic_backend (client := Contract.client backend).
Proof.
  intros diagram format engine s1 s2 r1 r2. simpl. unfold Contract.render.
  destruct s1, s2; simpl; try discriminate.
  destruct (String.eqb diagram ""); simpl; [discriminate |].
  destruct (Contract.parse_format format); simpl; [| discriminate].
  destruct (backend engine diagram f) as [[payload warns] |]; simpl;
    congruence.
Qed.
End ContractFacts.

Lemma sample_backend_payload_nonempty :
  Contract.payload_nonempty Contract.sample_backend.
Proof.
  intros engine source fmt payload warns.
  destruct fmt; simpl; intros [= <- <-]; discriminate.
Qed.

(** The module body of the script, run on the contract client. *)
Lemma contract_module_init :
  module_init (client := Contract.sample_client)
    (initial (client := Contract.sample_client)) = (inr (), ready).
Proof. reflexivity. Qed.

(** * Instances on the sample engine *)

Section Samples.
#[local] Existing Instance Contract.sample_client.

(** The scenarios of the specification, on the sample engine. *)
Example render_svg_scenario :
  (render_mermaid "graph TD; A-->B" (Some "svg") ready).1
  = inr {[ "mime" := VStr "image/svg+xml";
           "bytes" := VBytes [x3c; x73; x76; x67; x2f; x3e];
           "warnings" := VList [] ]}.
Proof. reflexivity. Qed.

Example render_png_scenario :
  (render_mermaid "graph TD; A-->B" (Some "png") ready).1
  = inr {[ "mime" := VStr "image/png";
           "bytes" := VBytes [x89; x50; x4e; x47];
           "warnings" := VList [] ]}.
Proof. reflexivity. Qed.

(** The script of the example, its tool call made on the function itself,
    from start to an orderly exit. *)
Example script_calls :
  calls (run_process main_invocations InterpreterExit)
  = [CallStart; CallRender "graph TD; A-->B" "svg" "stub"; CallClose].
Proof. reflexivity. Qed.







(** A call on the client before [start]. *)
Lemma render_mermaid_not_connected_witness :
  _client initial = false ∧
  (render_mermaid "graph TD; A-->B" (Some "svg") initial).1
    = inl Contract.BackendUnavailable.
Proof.
  split; [reflexivity |].
  apply (render_mermaid_not_connected Contract.sample_backend
           "graph TD; A-->B" (Some "svg") initial).
  reflexivity.
Defined.

(** The dict of a call without format on the started client. *)
Lemma render_mermaid_result_fields_witness :
  ∃ d,
    (render_mermaid "graph TD; A-->B" None ready).1 = inr d ∧
    ∃ result,
      (render "graph TD; A-->B" "svg" "stub" true).1 = inr result ∧
      d !! "mime" = Some (mime result) ∧
      d !! "bytes" = Some (bytes result) ∧
      d !! "warnings" = Some (warnings result) ∧
      dom d =@{gset string} {[ "mime"; "bytes"; "warnings" ]}.
Proof.
  eexists. split; [reflexivity |].
  apply (render_mermaid_result_fields "graph TD; A-->B" None ready).
  reflexivity.
Defined.

(** Two calls in a row on the started client. *)
Lemma render_mermaid_deterministic_witness :
  let after := (render_mermaid "graph TD; A-->B" (Some "svg") ready).2 in
  ∃ d1 d2,
    (render_mermaid "graph TD; A-->B" (Some "svg") ready).1 = inr d1 ∧
    (render_mermaid "graph TD; A-->B" (Some "svg") after).1 = inr d2 ∧
    d1 !! "mime" = d2 !! "mime" ∧ d1 !! "bytes" = d2 !! "bytes".
Proof.
  intros after.
  eexists. eexists. split; [reflexivity |]. split; [reflexivity |].
  apply (render_mermaid_deterministic
           "graph TD; A-->B" (Some "svg") ready after _ _
           (contract_client_deterministic Contract.sample_backend));
    reflexivity.
Defined.

(** The failure of the client before [start], seen through the tool. *)
Lemma render_mermaid_propagates_witness :
  (render "graph TD; A-->B" "svg" "stub" false).1
    = inl Contract.BackendUnavailable ∧
  (render_mermaid "graph TD; A-->B" None initial).1
    = inl Contract.BackendUnavailable.
Proof.
  split; [reflexivity |].
  apply (render_mermaid_propagates
           "graph TD; A-->B" None initial Contract.BackendUnavailable).
  reflexivity.
Defined.


End Samples.

(** * Further properties of the adapter and of the script *)

Section AgentExtras.
Context {E S : Type} {client : MermkitClient E S}.
Implicit Types (w : World S) (diagram : string) (format : option string).

(** X2: the adapter validates nothing.  Whatever the diagram and the format
    string, the empty diagram and a format the client has never heard of
    included, when the client answers the forwarded request the tool returns
    the dict made of that answer. *)
Theorem render_mermaid_no_validation diagram format w result :
  (render diagram (default "svg" format) "stub" (_client w)).1 = inr result →
  (render_mermaid diagram format w).1 =
    inr {[ "mime" := mime result;
           "bytes" := bytes result;
           "warnings" := warnings result ]}.
Proof.
  intros Hr. rewrite render_mermaid_unfold. simpl. rewrite Hr. reflexivity.
Qed.

(** X3: when [start] raises, the module body stops there: [close] is not
    registered, no tool invocation runs, and however the process ends the
    one call ever made on the client is that [start]. *)
Theorem start_failure_ends_script invocations how e :
  (start new).1 = inl e →
  calls (run_process invocations how) = [CallStart] ∧
  exitfuncs (run_process invocations how) = [].
Proof.
  intros Hstart.
  unfold run_process, module_init, bind, method, initial. simpl.
  destruct (start new) as [r s]. simpl in Hstart. subst r. simpl.
  destruct how; split; reflexivity.
Qed.

(** X5: when [start] succeeds, an orderly exit differs from a kill by one
    thing: [close] is called once more on the client, on the state the
    script left it in, and the registry of exit handlers is emptied. *)
Theorem orderly_exit_adds_one_close invocations :
  (start new).1 = inr () →
  calls (run_process invocations InterpreterExit) =
    calls (run_process invocations Killed) ++ [CallClose] ∧
  _client (run_process invocations InterpreterExit) =
    (close (_client (run_process invocations Killed))).2 ∧
  exitfuncs (run_process invocations InterpreterExit) = [].
Proof.
  intros Hstart. unfold run_process, bind.
  rewrite (module_init_started Hstart).
  set (w0 := {| _client := (start new).2; calls := [CallStart];
                exitfuncs := [BoundClose] |}).
  destruct (session_calls invocations w0) as (renders & _ & _ & Hx).
  unfold run_exitfuncs. rewrite Hx. simpl.
  unfold method. simpl. destruct (close _). auto.
Qed.
End AgentExtras.

Section ExtraSamples.

(** An empty diagram sent to the contract client. *)
Lemma render_mermaid_failure_from_client_witness :
  (render_mermaid (client := Contract.sample_client) "" None ready).1
    = inl Contract.InvalidArgument ∧
  (render (MermkitClient := Contract.sample_client) "" "svg" "stub" true).1
    = inl Contract.InvalidArgument.
Proof.
  split; [reflexivity |].
  apply (render_mermaid_failure_from_client
           (client := Contract.sample_client) "" None ready).
  reflexivity.
Defined.

(** An empty diagram and an unknown format sent to the client that answers
    everything. *)
Lemma render_mermaid_no_validation_witness :
  (render_mermaid (client := echo_client) "" (Some "pdf")
     (initial (client := echo_client))).1 =
    inr {[ "mime" := VStr "pdf";
           "bytes" := VBytes [];
           "warnings" := VList [] ]}.
Proof.
  apply (render_mermaid_no_validation (client := echo_client)
           "" (Some "pdf") (initial (client := echo_client))
           {| mime := VStr "pdf"; bytes := VBytes [];
              warnings := VList [] |}).
  reflexivity.
Defined.

(** What the client that answers everything receives, under observation,
    from a call without format. *)
Example observed_default_request :
  (_client (render_mermaid (client := observed echo_client)
              "graph TD; A-->B" None
              (initial (client := observed echo_client))).2).2
  = [("graph TD; A-->B", "svg", "stub")].
Proof. reflexivity. Qed.

(** The script of the example on the client that cannot connect. *)
Lemma start_failure_ends_script_witness :
  calls (run_process (client := offline_client)
           main_invocations InterpreterExit) = [CallStart] ∧
  exitfuncs (run_process (client := offline_client)
               main_invocations InterpreterExit) = [].
Proof.
  apply (start_failure_ends_script (client := offline_client)
           main_invocations InterpreterExit "connection refused").
  reflexivity.
Defined.

(** The script of the example on the contract client. *)
Lemma orderly_exit_adds_one_close_witness :
  calls (run_process (client := Contract.sample_client)
           main_invocations InterpreterExit) =
    calls (run_process (client := Contract.sample_client)
             main_invocations Killed) ++ [CallClose] ∧
  _client (run_process (client := Contract.sample_client)
             main_invocations InterpreterExit) =
    (close (MermkitClient := Contract.sample_client)
       (_client (run_process (client := Contract.sample_client)
                   main_invocations Killed))).2 ∧
  exitfuncs (run_process (client := Contract.sample_client)
               main_invocations InterpreterExit) = [].
Proof.
  apply (orderly_exit_adds_one_close (client := Contract.sample_client)
           main_invocations).
  reflexivity.
Defined.
End ExtraSamples.
